(** * sf-plugins-core flag definitions: a shallow embedding

    The repository consists of two leaf modules,

    - [src/flags/orgFlags.ts]: the four org flags ([optionalOrgFlag],
      [requiredOrgFlag], [requiredHubFlag], [optionalHubFlag]) and their
      helpers [maybeGetOrg], [maybeGetHub], [getOrgOrThrow], [ensureDevHub],
      [getDefaultHub], [getHubOrThrow];
    - the API version flag ([orgApiVersionFlag]) with [validate] and
      [getDefaultFromConfig].

    Both are glue around the vendor SDK ([Org.create], [ConfigAggregator],
    [sfdc.validateApiVersion], [Lifecycle.emitWarning], the message
    catalogue).  The SDK is an interface here (class [Sdk]); the functions of
    the repository are translated over it, promise by promise. *)

From Stdlib Require Import String Ascii List ZArith Bool Lia.
Import ListNotations.

Local Open Scope string_scope.
Local Open Scope Z_scope.

(* ===================================================================== *)
(** ** JavaScript values used by the code *)
(* ===================================================================== *)

Module Js.

(** A [string | undefined] is an [option string], [None] for [undefined].
    Truthiness: [undefined] and the empty string are falsy, every other
    string is truthy. *)
Definition truthy (v : option string) : bool :=
  match v with
  | Some (String _ _) => true
  | Some EmptyString => false
  | None => false
  end.

(** [a ?? b] on values; only [undefined] falls through to [b]. *)
Definition nullish {A : Type} (a b : option A) : option A :=
  match a with
  | Some x => Some x
  | None => b
  end.

(** A JavaScript number as far as the code observes it: the result of
    [parseInt] compared with the integer constants 21 and 30.  [parseInt]
    rounds very long digit strings to a double; rounding is monotone and
    exact below 2^53, so comparing the exact integer with 21 or 30 gives
    the same answer as comparing the double. *)
Inductive number : Type :=
| NaN
| Int (z : Z).

(** [a < b] and [a <= b]: both are false as soon as one side is [NaN]. *)
Definition lt (a b : number) : bool :=
  match a, b with
  | Int x, Int y => x <? y
  | _, _ => false
  end.

Definition le (a b : number) : bool :=
  match a, b with
  | Int x, Int y => x <=? y
  | _, _ => false
  end.

(** White space and line terminators that [parseInt] skips, among the code
    units a Rocq [ascii] can hold: TAB, LF, VT, FF, CR, SP, NBSP. *)
Definition isWhiteSpace (c : ascii) : bool :=
  let n := nat_of_ascii c in
  (Nat.eqb n 9 || Nat.eqb n 10 || Nat.eqb n 11 || Nat.eqb n 12
   || Nat.eqb n 13 || Nat.eqb n 32 || Nat.eqb n 160)%bool.

Fixpoint trimStart (s : string) : string :=
  match s with
  | String c rest => if isWhiteSpace c then trimStart rest else s
  | EmptyString => EmptyString
  end.

(** Value of a decimal digit, [None] for any other character. *)
Definition digit (c : ascii) : option Z :=
  let n := Z.of_nat (nat_of_ascii c) in
  if ((48 <=? n) && (n <=? 57))%bool then Some (n - 48) else None.

(** The longest prefix of decimal digits, read most significant first;
    [acc] is [NaN] until a first digit has been seen. *)
Fixpoint digits (s : string) (acc : number) : number :=
  match s with
  | String c rest =>
      match digit c with
      | Some d =>
          digits rest (Int (10 * (match acc with Int a => a | NaN => 0 end) + d))
      | None => acc
      end
  | EmptyString => acc
  end.

Definition negate (n : number) : number :=
  match n with
  | Int z => Int (- z)
  | NaN => NaN
  end.

(** [parseInt(s, 10)]: skip leading white space, read an optional sign,
    then the longest run of decimal digits; [NaN] when that run is empty.
    With an explicit radix of 10 no [0x] prefix is recognised. *)
Definition parseInt10 (s : string) : number :=
  match trimStart s with
  | String "-" rest => negate (digits rest NaN)
  | String "+" rest => digits rest NaN
  | t => digits t NaN
  end.

End Js.

(* ===================================================================== *)
(** ** The vendor SDK as an interface *)
(* ===================================================================== *)

(** The two configuration keys the code reads. *)
Inductive OrgConfigProperties : Type :=
| TARGET_DEV_HUB
| ORG_API_VERSION.

(** What the repository consumes from [@salesforce/core].

    - [Org_create input] is [Org.create({ aliasOrUsername: input })]: a
      handle, or the failure the SDK rejects with.  With [None] the SDK
      falls back on its own default org.
    - [getUsername] and [determineIfDevHubOrg] are the two observations the
      code makes of a handle.
    - [getInfo_value key] is [config.getInfo(key)?.value] on a freshly
      created [ConfigAggregator]: [None] when the key has no value.
    - [validateApiVersion] is [sfdc.validateApiVersion], the format check.

    Reading the configuration, asking a handle whether it is a dev hub and
    emitting a warning are taken to complete; session creation is the call
    whose failure the code handles. *)
Class Sdk : Type := {
  Org : Type;
  Failure : Type;
  Org_create : option string -> Failure + Org;
  getUsername : Org -> option string;
  determineIfDevHubOrg : Org -> bool;
  getInfo_value : OrgConfigProperties -> option string;
  validateApiVersion : string -> bool
}.

(* ===================================================================== *)
(** ** Messages, thrown values, promises *)
(* ===================================================================== *)

(** A positional token handed to the message catalogue. *)
Inductive token : Type :=
| TString (s : string)
| TNumber (n : Z)
| TUndefined.

Definition token_of (v : option string) : token :=
  match v with
  | Some s => TString s
  | None => TUndefined
  end.

(** [messages.getMessage(key, tokens)]: the catalogue entry and what is
    substituted into it.  The catalogue's text is not part of the code. *)
Record message : Type := getMessage {
  message_key : string;
  message_tokens : list token
}.

Section Promises.

Context {sdk : Sdk}.

(** What a promise can reject with: an error built by
    [messages.createError(key, tokens)] in this repository, or a failure
    object that came out of the SDK and is passed on as it is. *)
Inductive thrown : Type :=
| createError (key : string) (tokens : list token)
| sdkFailure (f : Failure).

(** The settled state of a promise. *)
Inductive outcome (A : Type) : Type :=
| Resolved (a : A)
| Rejected (e : thrown).

(** The warnings emitted so far through [Lifecycle.getInstance()]. *)
Definition Lifecycle : Type := list message.

(** An asynchronous function that may emit warnings. *)
Definition Async (A : Type) : Type := Lifecycle -> Lifecycle * outcome A.

End Promises.

Arguments Resolved {sdk A} a.
Arguments Rejected {sdk A} e.

(** Sequencing of awaits, for promises with and without warnings. *)
Class Monad (M : Type -> Type) : Type := {
  ret : forall {A : Type}, A -> M A;
  bind : forall {A B : Type}, M A -> (A -> M B) -> M B
}.

Class MonadThrow {sdk : Sdk} (M : Type -> Type) : Type := {
  throw : forall {A : Type}, thrown -> M A
}.

Declare Scope async_scope.
Delimit Scope async_scope with async.
Notation "x <- m ;; k" := (bind m (fun x => k))
  (at level 61, m at next level, right associativity) : async_scope.
Notation "m ;; k" := (bind m (fun _ => k))
  (at level 61, right associativity) : async_scope.

#[global] Instance Monad_outcome {sdk : Sdk} : Monad outcome := {
  ret := fun A a => Resolved a;
  bind := fun A B m k =>
    match m with
    | Resolved a => k a
    | Rejected e => Rejected e
    end
}.

#[global] Instance MonadThrow_outcome {sdk : Sdk} : MonadThrow outcome := {
  throw := fun A e => Rejected e
}.

#[global] Instance Monad_Async {sdk : Sdk} : Monad Async := {
  ret := fun A a => fun log => (log, Resolved a);
  bind := fun A B m k => fun log =>
    match m log with
    | (log', Resolved a) => k a log'
    | (log', Rejected e) => (log', Rejected e)
    end
}.

#[global] Instance MonadThrow_Async {sdk : Sdk} : MonadThrow Async := {
  throw := fun A e => fun log => (log, Rejected e)
}.

(** [try { body } catch (e) { handler(e) }] on a promise without warnings. *)
Definition try_catch {sdk : Sdk} {A : Type}
  (body : outcome A) (handler : thrown -> outcome A) : outcome A :=
  match body with
  | Resolved a => Resolved a
  | Rejected e => handler e
  end.

(** [await Org.create({ aliasOrUsername: input })]. *)
Definition await_Org_create {sdk : Sdk} (input : option string) : outcome Org :=
  match Org_create input with
  | inr org => Resolved org
  | inl f => Rejected (sdkFailure f)
  end.

(** [await Lifecycle.getInstance().emitWarning(m)]. *)
Definition emitWarning {sdk : Sdk} (m : message) : Async unit :=
  fun log => ((log ++ [m])%list, Resolved tt).

(** The part of oclif's flag definition the repository fills in.  [I] is
    what [parse] receives, [T] what it resolves to, [D] what [default]
    resolves to. *)
Record FlagDefinition (M : Type -> Type) (I T D : Type) : Type := {
  char : option ascii;
  required : bool;
  parse : I -> M T;
  default : M D;
  defaultHelp : option (M (option string))
}.

Arguments char {M I T D} _.
Arguments required {M I T D} _.
Arguments parse {M I T D} _ _.
Arguments default {M I T D} _.
Arguments defaultHelp {M I T D} _.

(* ===================================================================== *)
(** ** The API version flag *)
(* ===================================================================== *)

Module OrgApiVersion.

Import Js.
Local Open Scope async_scope.

(** versions below this are retired *)
Definition minValidApiVersion : Z := 21.
(** this and all un-retired versions below it are deprecated *)
Definition maxDeprecated : Z := 30.
Definition maxDeprecatedUrl : string :=
  "https://help.salesforce.com/s/articleView?id=000354473&type=1;".

Section WithSdk.

Context {sdk : Sdk}.

Definition validate (input : string) : Async string :=
  (* basic format check *)
  if negb (validateApiVersion input) then
    throw (createError "errors.InvalidApiVersion" [TString input])
  else
    let requestedVersion := parseInt10 input in
    if lt requestedVersion (Int minValidApiVersion) then
      throw (createError "errors.RetiredApiVersion" [TNumber minValidApiVersion])
    else
      (if le requestedVersion (Int maxDeprecated) then
         emitWarning
           (getMessage "flags.apiVersion.warning.deprecated"
              [TNumber maxDeprecated; TString maxDeprecatedUrl])
       else ret tt) ;;
      ret input.

Definition getDefaultFromConfig : Async (option string) :=
  let apiVersionFromConfig := getInfo_value ORG_API_VERSION in
  if truthy apiVersionFromConfig then
    match apiVersionFromConfig with
    | Some v =>
        emitWarning
          (getMessage "flags.apiVersion.overrideWarning" [TString v]) ;;
        validated <- validate v ;;
        ret (Some validated)
    | None => ret None
    end
  else ret None.

Definition orgApiVersionFlag : FlagDefinition Async string string (option string) := {|
  char := None;
  required := false;
  parse := fun input => validate input;
  default := getDefaultFromConfig;
  defaultHelp := None
|}.

End WithSdk.

End OrgApiVersion.

(* ===================================================================== *)
(** ** The org flags *)
(* ===================================================================== *)

Module OrgFlags.

Import Js.
Local Open Scope async_scope.

Section WithSdk.

Context {sdk : Sdk}.

Definition maybeGetOrg (input : option string) : outcome (option Org) :=
  try_catch
    (org <- await_Org_create input ;; ret (Some org))
    (fun e => if negb (truthy input) then ret None else throw e).

Definition ensureDevHub (org : Org) (aliasOrUsername : option string) : outcome Org :=
  if determineIfDevHubOrg org then ret org
  else
    throw (createError "errors.NotADevHub"
             [token_of (nullish aliasOrUsername (getUsername org))]).

Definition getDefaultHub (throwIfNotFound : bool) : outcome (option string) :=
  (* check config for a default *)
  let aliasOrUsername := getInfo_value TARGET_DEV_HUB in
  if (throwIfNotFound && negb (truthy aliasOrUsername))%bool then
    throw (createError "errors.NoDefaultDevHub" [])
  else ret aliasOrUsername.

(** [input ?? (await getDefaultHub(t))]: the configuration is read only
    when [input] is [undefined]. *)
Definition input_or_default_hub (input : option string) (throwIfNotFound : bool)
  : outcome (option string) :=
  match input with
  | Some s => ret (Some s)
  | None => getDefaultHub throwIfNotFound
  end.

Definition maybeGetHub (input : option string) : outcome (option Org) :=
  target <- input_or_default_hub input false ;;
  org <- maybeGetOrg target ;;
  match org with
  | Some org =>
      hub <- ensureDevHub org (nullish input (getUsername org)) ;;
      ret (Some hub)
  | None => ret None
  end.

Definition getOrgOrThrow (input : option string) : outcome Org :=
  org <- maybeGetOrg input ;;
  match org with
  | None => throw (createError "errors.NoDefaultEnv" [])
  | Some org => ret org
  end.

Definition getHubOrThrow (aliasOrUsername : option string) : outcome Org :=
  resolved <- input_or_default_hub aliasOrUsername true ;;
  org <- await_Org_create resolved ;;
  ensureDevHub org resolved.

(** [(await m)?.getUsername()] *)
Definition username_of (org : option Org) : option string :=
  match org with
  | Some o => getUsername o
  | None => None
  end.

Definition optionalOrgFlag
  : FlagDefinition outcome (option string) (option Org) (option Org) := {|
  char := Some "o"%char;
  required := false;
  parse := fun input => maybeGetOrg input;
  default := maybeGetOrg None;
  defaultHelp := Some (org <- maybeGetOrg None ;; ret (username_of org))
|}.

Definition requiredOrgFlag
  : FlagDefinition outcome (option string) Org Org := {|
  char := Some "o"%char;
  required := true;
  parse := fun input => getOrgOrThrow input;
  default := getOrgOrThrow None;
  defaultHelp := Some (org <- getOrgOrThrow None ;; ret (getUsername org))
|}.

Definition requiredHubFlag
  : FlagDefinition outcome (option string) Org Org := {|
  char := Some "v"%char;
  required := true;
  parse := fun input => getHubOrThrow input;
  default := getHubOrThrow None;
  defaultHelp := Some (org <- getHubOrThrow None ;; ret (getUsername org))
|}.

Definition optionalHubFlag
  : FlagDefinition outcome (option string) (option Org) (option Org) := {|
  char := Some "v"%char;
  required := false;
  parse := fun input => maybeGetHub input;
  default := maybeGetHub None;
  defaultHelp := Some (org <- maybeGetHub None ;; ret (username_of org))
|}.

End WithSdk.

End OrgFlags.

(* ===================================================================== *)
(** ** A concrete SDK for examples *)
(* ===================================================================== *)

Module Demo.

(** A handle is its username and whether the org is a dev hub. *)
Record DemoOrg : Type := {
  demo_username : option string;
  demo_isDevHub : bool
}.

(** The two ways session creation fails here. *)
Inductive DemoFailure : Type :=
| NamedOrgNotFound (aliasOrUsername : string)
| NoUsernameFound.

(** The authenticated orgs by alias, the SDK's own default org and the two
    configuration values. *)
Record world : Type := {
  orgs : list (string * DemoOrg);
  defaultOrg : option string;
  targetDevHub : option string;
  orgApiVersion : option string
}.

Fixpoint find_org (name : string) (l : list (string * DemoOrg)) : option DemoOrg :=
  match l with
  | [] => None
  | (a, o) :: rest => if String.eqb a name then Some o else find_org name rest
  end.

Definition create (w : world) (input : option string) : DemoFailure + DemoOrg :=
  match input with
  | Some a =>
      match find_org a (orgs w) with
      | Some o => inr o
      | None => inl (NamedOrgNotFound a)
      end
  | None =>
      match defaultOrg w with
      | Some a =>
          match find_org a (orgs w) with
          | Some o => inr o
          | None => inl (NamedOrgNotFound a)
          end
      | None => inl NoUsernameFound
      end
  end.

(** A digit from [lo] to 9. *)
Definition digit_from (lo : Z) (c : ascii) : bool :=
  match Js.digit c with
  | Some d => lo <=? d
  | None => false
  end.

(** The format check as the pattern [^[1-9]\d\.0$]. *)
Definition two_digits_dot_zero (s : string) : bool :=
  match s with
  | String a (String b (String "." (String "0" EmptyString))) =>
      (digit_from 1 a && digit_from 0 b)%bool
  | _ => false
  end.

Definition sdk_of (w : world) : Sdk := {|
  Org := DemoOrg;
  Failure := DemoFailure;
  Org_create := create w;
  getUsername := demo_username;
  determineIfDevHubOrg := demo_isDevHub;
  getInfo_value := fun key =>
    match key with
    | TARGET_DEV_HUB => targetDevHub w
    | ORG_API_VERSION => orgApiVersion w
    end;
  validateApiVersion := two_digits_dot_zero
|}.

Definition scratch : DemoOrg :=
  {| demo_username := Some "dev@example.com"; demo_isDevHub := false |}.

Definition hub : DemoOrg :=
  {| demo_username := Some "admin@example.com"; demo_isDevHub := true |}.

(** Nothing authenticated, nothing configured. *)
Definition empty_world : world :=
  {| orgs := []; defaultOrg := None; targetDevHub := None; orgApiVersion := None |}.

(** A scratch org and a dev hub are authenticated; the configured dev hub
    default is the alias of the scratch org, which is not a dev hub. *)
Definition misconfigured_hub : world :=
  {| orgs := [("dev", scratch); ("hub", hub)];
     defaultOrg := Some "dev";
     targetDevHub := Some "dev";
     orgApiVersion := Some "25.0" |}.

(** The configured dev hub default names an org that is not authenticated. *)
Definition stale_hub : world :=
  {| orgs := [("dev", scratch)];
     defaultOrg := None;
     targetDevHub := Some "gone";
     orgApiVersion := Some "" |}.

(** The three worlds as SDKs. *)
Definition nobody : Sdk := sdk_of empty_world.
Definition misconfigured : Sdk := sdk_of misconfigured_hub.
Definition stale : Sdk := sdk_of stale_hub.

End Demo.

(* ===================================================================== *)
(** ** Vocabulary of the statements *)
(* ===================================================================== *)

(** The deprecation notice: it refers to the threshold 30 and to the fixed
    URL. *)
Definition deprecationWarning : message :=
  getMessage "flags.apiVersion.warning.deprecated"
    [TNumber 30;
     TString "https://help.salesforce.com/s/articleView?id=000354473&type=1;"].

(** The notice that a configured API version overrides the default. *)
Definition overrideWarning (v : string) : message :=
  getMessage "flags.apiVersion.overrideWarning" [TString v].

(** [default] resolves to [string | undefined] where [parse] resolves to
    [string]: the same settled promise, seen at the wider type. *)
Definition widen {sdk : Sdk} (r : Lifecycle * outcome string)
  : Lifecycle * outcome (option string) :=
  match r with
  | (log, Resolved s) => (log, Resolved (Some s))
  | (log, Rejected e) => (log, Rejected e)
  end.

(** The identifier [getHubOrThrow] hands to session creation: the input
    when there is one, else a non-empty configured dev hub default. *)
Definition hub_identifier {sdk : Sdk} (input : option string) (id : string) : Prop :=
  input = Some id \/
  (input = None /\ getInfo_value TARGET_DEV_HUB = Some id /\ id <> "").

(** The three errors the org flags build themselves. *)
Definition NoDefaultEnv {sdk : Sdk} : thrown :=
  createError "errors.NoDefaultEnv" [].
Definition NoDefaultDevHub {sdk : Sdk} : thrown :=
  createError "errors.NoDefaultDevHub" [].
Definition NotADevHub {sdk : Sdk} (named : option string) : thrown :=
  createError "errors.NotADevHub" [token_of named].

(** A required flag resolves to [Org] where the optional one resolves to
    [Org | undefined]: the same settled promise, seen at the wider type. *)
Definition optional {sdk : Sdk} {A : Type} (r : outcome A) : outcome (option A) :=
  match r with
  | Resolved a => Resolved (Some a)
  | Rejected e => Rejected e
  end.

(** What [defaultHelp] shows of a settled [default]: the username that
    [view] reads off the resolved value, or the same rejection. *)
Definition shown {sdk : Sdk} {A : Type} (view : A -> option string)
  (r : outcome A) : outcome (option string) :=
  match r with
  | Resolved a => Resolved (view a)
  | Rejected e => Rejected e
  end.

(** The two errors the API version flag builds itself. *)
Definition InvalidApiVersion {sdk : Sdk} (input : string) : thrown :=
  createError "errors.InvalidApiVersion" [TString input].
Definition RetiredApiVersion {sdk : Sdk} : thrown :=
  createError "errors.RetiredApiVersion" [TNumber 21].

(* ===================================================================== *)
(** ** Further example SDKs *)
(* ===================================================================== *)

Module Worlds.

(** A scratch org and a dev hub are authenticated, the dev hub is the
    configured default; the configured API version "10.0" is retired. *)
Definition with_hub : Demo.world :=
  {| Demo.orgs := [("dev", Demo.scratch); ("hub", Demo.hub)];
     Demo.defaultOrg := Some "dev";
     Demo.targetDevHub := Some "hub";
     Demo.orgApiVersion := Some "10.0" |}.

(** Only a scratch org is authenticated and it is the default org; no dev
    hub default is configured.  The configured API version is "45.0". *)
Definition scratch_only : Demo.world :=
  {| Demo.orgs := [("dev", Demo.scratch)];
     Demo.defaultOrg := Some "dev";
     Demo.targetDevHub := None;
     Demo.orgApiVersion := Some "45.0" |}.

Definition healthy : Sdk := Demo.sdk_of with_hub.
Definition no_hub : Sdk := Demo.sdk_of scratch_only.

End Worlds.

(* ===================================================================== *)
(** ** Properties of the API version flag *)
(* ===================================================================== *)

Section OrgApiVersionProperties.

Import Js OrgApiVersion.

Context {sdk : Sdk}.

(** The three branches of [validate], one equation each. *)
Lemma validate_bad_format (input : string) (log : Lifecycle) :
  validateApiVersion input = false ->
  validate input log =
    (log, Rejected (createError "errors.InvalidApiVersion" [TString input])).
Proof.
  intros Hfmt. unfold validate. rewrite Hfmt. reflexivity.
Qed.

Lemma validate_good_format (input : string) (log : Lifecycle) :
  validateApiVersion input = true ->
  validate input log =
    if lt (parseInt10 input) (Int minValidApiVersion) then
      (log, Rejected (createError "errors.RetiredApiVersion" [TNumber 21]))
    else if le (parseInt10 input) (Int maxDeprecated) then
      ((log ++ [deprecationWarning])%list, Resolved input)
    else (log, Resolved input).
Proof.
  intros Hfmt. unfold validate. rewrite Hfmt. cbn [negb].
  destruct (lt (parseInt10 input) (Int minValidApiVersion)); [reflexivity|].
  destruct (le (parseInt10 input) (Int maxDeprecated)); reflexivity.
Qed.

(** Whatever [validate] resolves to is its input. *)
Lemma validate_resolves_input (input s : string) (log log' : Lifecycle) :
  validate input log = (log', Resolved s) -> s = input.
Proof.
  destruct (validateApiVersion input) eqn:Hfmt.
  - rewrite (validate_good_format _ _ Hfmt).
    destruct (lt _ _); [discriminate|].
    destruct (le _ _); intros H; inversion H; reflexivity.
  - rewrite (validate_bad_format _ _ Hfmt). discriminate.
Qed.

(** C6.  A well-formed version string whose numeric value is below the
    minimum supported version 21 makes [parse] fail with
    [RetiredApiVersion]; the error carries 21 as its message parameter and
    no warning is emitted. *)
Theorem parse_retired_version (input : string) (n : Z) (log : Lifecycle) :
  validateApiVersion input = true ->
  parseInt10 input = Int n ->
  n < minValidApiVersion ->
  parse orgApiVersionFlag input log =
    (log, Rejected (createError "errors.RetiredApiVersion" [TNumber 21])).
Proof.
  intros Hfmt Hnum Hlt. cbn [parse orgApiVersionFlag].
  rewrite (validate_good_format _ _ Hfmt), Hnum. cbn [lt].
  apply Z.ltb_lt in Hlt. rewrite Hlt. reflexivity.
Qed.

(** C7.  An input that fails the format check makes [parse] fail with
    [InvalidApiVersion] carrying the input as message parameter.  The
    format check comes first: the outcome does not depend on the numeric
    value of the input, so neither [RetiredApiVersion] nor the deprecation
    warning can occur, whatever [parseInt] would make of the string. *)
Theorem parse_malformed_version (input : string) (log : Lifecycle) :
  validateApiVersion input = false ->
  parse orgApiVersionFlag input log =
    (log, Rejected (createError "errors.InvalidApiVersion" [TString input])).
Proof.
  intros Hfmt. cbn [parse orgApiVersionFlag].
  exact (validate_bad_format input log Hfmt).
Qed.

(** C8.  A well-formed version string with numeric value [n >= 21]: when
    [n <= 30], [parse] resolves to the input unchanged and the warnings
    emitted are exactly one deprecation notice (threshold 30 and the fixed
    URL); when [n > 30], [parse] resolves to the input unchanged and emits
    nothing. *)
Theorem parse_supported_version (input : string) (n : Z) (log : Lifecycle) :
  validateApiVersion input = true ->
  parseInt10 input = Int n ->
  minValidApiVersion <= n ->
  (n <= maxDeprecated ->
   parse orgApiVersionFlag input log =
     ((log ++ [deprecationWarning])%list, Resolved input)) /\
  (maxDeprecated < n ->
   parse orgApiVersionFlag input log = (log, Resolved input)).
Proof.
  intros Hfmt Hnum Hmin. cbn [parse orgApiVersionFlag].
  rewrite (validate_good_format _ _ Hfmt), Hnum. cbn [lt le].
  assert (Hge : (n <? minValidApiVersion) = false) by (apply Z.ltb_ge; exact Hmin).
  rewrite Hge. split; intros Hdep.
  - apply Z.leb_le in Hdep. rewrite Hdep. reflexivity.
  - apply Z.leb_gt in Hdep. rewrite Hdep. reflexivity.
Qed.

(** C9.  [default()] resolves to [undefined], emitting nothing, when no
    API version is configured; the code tests the configured value for
    truthiness, so an empty string counts as not configured.  When a
    (non-empty) value [v] is configured, [default()] emits the override
    notice for [v] and then is [parse v]: same warnings, same failure, and
    when [parse] resolves, the same value, which is [v] itself. *)
Theorem default_from_config (log : Lifecycle) :
  (getInfo_value ORG_API_VERSION = None ->
   default orgApiVersionFlag log = (log, Resolved None)) /\
  (getInfo_value ORG_API_VERSION = Some "" ->
   default orgApiVersionFlag log = (log, Resolved None)) /\
  (forall v : string,
     getInfo_value ORG_API_VERSION = Some v -> v <> "" ->
     default orgApiVersionFlag log =
       widen (parse orgApiVersionFlag v (log ++ [overrideWarning v])%list) /\
     (forall log' r, default orgApiVersionFlag log = (log', Resolved r) ->
                     r = Some v)).
Proof.
  cbn [default parse orgApiVersionFlag]. unfold getDefaultFromConfig.
  split; [|split].
  - intros Hcfg. rewrite Hcfg. reflexivity.
  - intros Hcfg. rewrite Hcfg. reflexivity.
  - intros v Hcfg Hne. rewrite Hcfg.
    destruct v as [|c rest]; [contradiction Hne; reflexivity|].
    cbn [truthy].
    assert (Heq :
      (emitWarning (getMessage "flags.apiVersion.overrideWarning"
                      [TString (String c rest)]) ;;
       validated <- validate (String c rest) ;; ret (Some validated))%async log
      = widen (validate (String c rest)
                 (log ++ [overrideWarning (String c rest)])%list)).
    { cbn [bind Monad_Async emitWarning ret]. unfold overrideWarning, widen.
      destruct (validate (String c rest) _) as [l [s|e]]; reflexivity. }
    split; [exact Heq|].
    intros log' r Hres. rewrite Heq in Hres. unfold widen in Hres.
    destruct (validate (String c rest) _) as [l [s|e]] eqn:Hv;
      inversion Hres; subst.
    f_equal. exact (validate_resolves_input _ _ _ _ Hv).
Qed.

End OrgApiVersionProperties.

(* ===================================================================== *)
(** ** Properties of the org flags *)
(* ===================================================================== *)

Section OrgFlagsProperties.

Import Js OrgFlags.

Context {sdk : Sdk}.

(** *** The helpers, branch by branch *)

Lemma maybeGetOrg_created (input : option string) (org : Org) :
  Org_create input = inr org ->
  maybeGetOrg input = Resolved (Some org).
Proof.
  intros Hc. unfold maybeGetOrg, await_Org_create. rewrite Hc. reflexivity.
Qed.

Lemma maybeGetOrg_failed (input : option string) (f : Failure) :
  Org_create input = inl f ->
  maybeGetOrg input =
    if truthy input then Rejected (sdkFailure f) else Resolved None.
Proof.
  intros Hc. unfold maybeGetOrg, await_Org_create. rewrite Hc.
  cbn. destruct (truthy input); reflexivity.
Qed.

Lemma getOrgOrThrow_created (input : option string) (org : Org) :
  Org_create input = inr org ->
  getOrgOrThrow input = Resolved org.
Proof.
  intros Hc. unfold getOrgOrThrow. rewrite (maybeGetOrg_created _ _ Hc).
  reflexivity.
Qed.

Lemma getOrgOrThrow_failed (input : option string) (f : Failure) :
  Org_create input = inl f ->
  getOrgOrThrow input =
    if truthy input then Rejected (sdkFailure f) else Rejected NoDefaultEnv.
Proof.
  intros Hc. unfold getOrgOrThrow. rewrite (maybeGetOrg_failed _ _ Hc).
  destruct (truthy input); reflexivity.
Qed.

Lemma ensureDevHub_not_hub (org : Org) (aliasOrUsername : option string) :
  determineIfDevHubOrg org = false ->
  ensureDevHub org aliasOrUsername =
    Rejected (NotADevHub (nullish aliasOrUsername (getUsername org))).
Proof.
  intros Hd. unfold ensureDevHub. rewrite Hd. reflexivity.
Qed.

(** Without [throwIfNotFound] the configured value is returned as it is,
    so [maybeGetHub] creates a session for [input ?? configured]. *)
Lemma optional_hub_target (input : option string) :
  input_or_default_hub input false =
    Resolved (nullish input (getInfo_value TARGET_DEV_HUB)).
Proof.
  destruct input; reflexivity.
Qed.

Lemma maybeGetHub_failed (input : option string) (f : Failure) :
  Org_create (nullish input (getInfo_value TARGET_DEV_HUB)) = inl f ->
  maybeGetHub input =
    if truthy (nullish input (getInfo_value TARGET_DEV_HUB))
    then Rejected (sdkFailure f) else Resolved None.
Proof.
  intros Hc. unfold maybeGetHub. rewrite optional_hub_target.
  cbn [bind Monad_outcome]. rewrite (maybeGetOrg_failed _ _ Hc).
  destruct (truthy _); reflexivity.
Qed.

Lemma maybeGetHub_not_hub (input : option string) (org : Org) :
  Org_create (nullish input (getInfo_value TARGET_DEV_HUB)) = inr org ->
  determineIfDevHubOrg org = false ->
  maybeGetHub input = Rejected (NotADevHub (nullish input (getUsername org))).
Proof.
  intros Hc Hd. unfold maybeGetHub. rewrite optional_hub_target.
  cbn [bind Monad_outcome]. rewrite (maybeGetOrg_created _ _ Hc).
  rewrite (ensureDevHub_not_hub _ _ Hd).
  destruct input; [reflexivity|].
  cbn [nullish]. destruct (getUsername org); reflexivity.
Qed.

(** With [throwIfNotFound] a falsy configured value is an error. *)
Lemma required_hub_no_default :
  truthy (getInfo_value TARGET_DEV_HUB) = false ->
  getHubOrThrow None = Rejected NoDefaultDevHub.
Proof.
  intros Hcfg. unfold getHubOrThrow, input_or_default_hub, getDefaultHub.
  rewrite Hcfg. reflexivity.
Qed.

Lemma required_hub_target (input : option string) (id : string) :
  hub_identifier input id ->
  input_or_default_hub input true = Resolved (Some id).
Proof.
  intros [-> | (-> & Hcfg & Hne)]; [reflexivity|].
  unfold input_or_default_hub, getDefaultHub. rewrite Hcfg.
  destruct id; [contradiction Hne; reflexivity | reflexivity].
Qed.

Lemma getHubOrThrow_failed (input : option string) (id : string) (f : Failure) :
  hub_identifier input id ->
  Org_create (Some id) = inl f ->
  getHubOrThrow input = Rejected (sdkFailure f).
Proof.
  intros Hid Hc. unfold getHubOrThrow. rewrite (required_hub_target _ _ Hid).
  cbn [bind Monad_outcome]. unfold await_Org_create. rewrite Hc. reflexivity.
Qed.

Lemma getHubOrThrow_not_hub (input : option string) (id : string) (org : Org) :
  hub_identifier input id ->
  Org_create (Some id) = inr org ->
  determineIfDevHubOrg org = false ->
  getHubOrThrow input = Rejected (NotADevHub (Some id)).
Proof.
  intros Hid Hc Hd. unfold getHubOrThrow. rewrite (required_hub_target _ _ Hid).
  cbn [bind Monad_outcome]. unfold await_Org_create. rewrite Hc.
  exact (ensureDevHub_not_hub org (Some id) Hd).
Qed.

(** [default] is [parse] without an input, for each of the four flags. *)
Lemma default_is_parse_without_input :
  default optionalOrgFlag = parse optionalOrgFlag None /\
  default requiredOrgFlag = parse requiredOrgFlag None /\
  default requiredHubFlag = parse requiredHubFlag None /\
  default optionalHubFlag = parse optionalHubFlag None.
Proof.
  repeat split.
Qed.

(** *** The claims *)

(** C1 (as amended).  For the optional variants, when session creation
    fails for the identifier handed to it ([input] for the org flag,
    [input ?? configured dev hub] for the hub flag), [parse] resolves to no
    value exactly when that identifier is [undefined] or empty; a non-empty
    identifier does not give "no value".  In particular [default] of the
    optional org flag, which passes no identifier, always resolves to no
    value when creation fails. *)
Theorem optional_no_value_iff_no_identifier :
  (forall (input : option string) (f : Failure),
     Org_create input = inl f ->
     (parse optionalOrgFlag input = Resolved None <-> truthy input = false)) /\
  (forall f : Failure,
     Org_create None = inl f ->
     default optionalOrgFlag = Resolved None) /\
  (forall (input : option string) (f : Failure),
     Org_create (nullish input (getInfo_value TARGET_DEV_HUB)) = inl f ->
     (parse optionalHubFlag input = Resolved None <->
      truthy (nullish input (getInfo_value TARGET_DEV_HUB)) = false)) /\
  (forall f : Failure,
     Org_create (getInfo_value TARGET_DEV_HUB) = inl f ->
     (default optionalHubFlag = Resolved None <->
      truthy (getInfo_value TARGET_DEV_HUB) = false)).
Proof.
  cbn [parse default optionalOrgFlag optionalHubFlag].
  split; [|split; [|split]].
  - intros input f Hc. rewrite (maybeGetOrg_failed _ _ Hc).
    destruct (truthy input); split; congruence.
  - intros f Hc. rewrite (maybeGetOrg_failed _ _ Hc). reflexivity.
  - intros input f Hc. rewrite (maybeGetHub_failed _ _ Hc).
    destruct (truthy _); split; congruence.
  - intros f Hc. rewrite (maybeGetHub_failed None _ Hc). cbn [nullish].
    destruct (truthy _); split; congruence.
Qed.

(** C2 (as amended).  What becomes of a failure [f] of [Org.create], flag
    by flag.  It is passed on as it is exactly when the identifier handed
    to [Org.create] is a non-empty string, whether that is the input or,
    for the optional hub flag, the configured dev hub default; the required
    hub flag always passes it on.  When the identifier is [undefined] or
    empty, the optional flags resolve to no value and the required org flag
    fails with [NoDefaultEnv] in place of [f]. *)
Theorem creation_failure_by_flag :
  (forall (input : option string) (f : Failure),
     Org_create input = inl f ->
     parse optionalOrgFlag input =
       if truthy input then Rejected (sdkFailure f) else Resolved None) /\
  (forall (input : option string) (f : Failure),
     Org_create input = inl f ->
     parse requiredOrgFlag input =
       if truthy input then Rejected (sdkFailure f) else Rejected NoDefaultEnv) /\
  (forall (input : option string) (f : Failure),
     Org_create (nullish input (getInfo_value TARGET_DEV_HUB)) = inl f ->
     parse optionalHubFlag input =
       if truthy (nullish input (getInfo_value TARGET_DEV_HUB))
       then Rejected (sdkFailure f) else Resolved None) /\
  (forall (input : option string) (id : string) (f : Failure),
     hub_identifier input id ->
     Org_create (Some id) = inl f ->
     parse requiredHubFlag input = Rejected (sdkFailure f)).
Proof.
  cbn [parse optionalOrgFlag requiredOrgFlag optionalHubFlag requiredHubFlag].
  split; [|split; [|split]].
  - exact maybeGetOrg_failed.
  - exact getOrgOrThrow_failed.
  - exact maybeGetHub_failed.
  - exact getHubOrThrow_failed.
Qed.

(** C3 (as amended).  For the required org flag, when session creation
    fails: with no input (or an empty one) resolution fails with
    [NoDefaultEnv]; with a non-empty input the creation failure itself is
    thrown.  Either way the flag rejects: it resolves only to the handle
    that [Org.create] produced, never to no value. *)
Theorem required_org_never_no_value :
  (forall (input : option string) (f : Failure),
     Org_create input = inl f ->
     parse requiredOrgFlag input =
       Rejected (if truthy input then sdkFailure f else NoDefaultEnv)) /\
  (forall f : Failure,
     Org_create None = inl f ->
     default requiredOrgFlag = Rejected NoDefaultEnv) /\
  (forall (input : option string) (org : Org),
     parse requiredOrgFlag input = Resolved org ->
     Org_create input = inr org).
Proof.
  cbn [parse default requiredOrgFlag].
  split; [|split].
  - intros input f Hc. rewrite (getOrgOrThrow_failed _ _ Hc).
    destruct (truthy input); reflexivity.
  - intros f Hc. rewrite (getOrgOrThrow_failed _ _ Hc). reflexivity.
  - intros input org Hres.
    destruct (Org_create input) as [f|org'] eqn:Hc.
    + rewrite (getOrgOrThrow_failed _ _ Hc) in Hres.
      destruct (truthy input); discriminate.
    + rewrite (getOrgOrThrow_created _ _ Hc) in Hres.
      inversion Hres. reflexivity.
Qed.

(** C4.  For the required hub flag: with no input and no dev hub default
    configured (the code also takes an empty configured value for none),
    [parse] and [default] fail with [NoDefaultDevHub]; when there is an
    identifier, the input or else the configured default, and session
    creation fails for it, that failure is thrown unchanged. *)
Theorem required_hub_failures :
  (truthy (getInfo_value TARGET_DEV_HUB) = false ->
   parse requiredHubFlag None = Rejected NoDefaultDevHub /\
   default requiredHubFlag = Rejected NoDefaultDevHub) /\
  (forall (input : option string) (id : string) (f : Failure),
     hub_identifier input id ->
     Org_create (Some id) = inl f ->
     parse requiredHubFlag input = Rejected (sdkFailure f) /\
     (input = None -> default requiredHubFlag = Rejected (sdkFailure f))).
Proof.
  cbn [parse default requiredHubFlag]. split.
  - intros Hcfg. split; exact (required_hub_no_default Hcfg).
  - intros input id f Hid Hc. split.
    + exact (getHubOrThrow_failed _ _ _ Hid Hc).
    + intros ->. exact (getHubOrThrow_failed _ _ _ Hid Hc).
Qed.

(** C5 (as amended).  For both hub flags, when a handle is created and the
    handle is not a dev hub, resolution fails with [NotADevHub] and the
    error names an identifier, by a rule of each flag's own.  The required
    flag names the identifier it resolved, that is the input or else the
    configured default, never the username of the handle.  The optional
    flag names the input or, when there is none, the username of the
    handle, never the configured default. *)
Theorem hub_flags_reject_non_hub :
  (forall (input : option string) (id : string) (org : Org),
     hub_identifier input id ->
     Org_create (Some id) = inr org ->
     determineIfDevHubOrg org = false ->
     parse requiredHubFlag input = Rejected (NotADevHub (Some id))) /\
  (forall (input : option string) (org : Org),
     Org_create (nullish input (getInfo_value TARGET_DEV_HUB)) = inr org ->
     determineIfDevHubOrg org = false ->
     parse optionalHubFlag input =
       Rejected (NotADevHub (nullish input (getUsername org)))).
Proof.
  cbn [parse requiredHubFlag optionalHubFlag]. split.
  - exact getHubOrThrow_not_hub.
  - exact maybeGetHub_not_hub.
Qed.

(** C10.  In [maybeGetOrg], and so in [parse] of the optional org flag, an
    empty string is treated like an absent input: when session creation
    fails for the empty string the result is [undefined], not the failure,
    because the catch branch tests [input] for falsiness.  A non-empty
    input with the same failure is rethrown. *)
Theorem empty_input_swallowed_like_absent (f : Failure) :
  Org_create (Some "") = inl f ->
  maybeGetOrg (Some "") = Resolved None /\
  parse optionalOrgFlag (Some "") = Resolved None /\
  (forall f0 : Failure,
     Org_create None = inl f0 -> maybeGetOrg (Some "") = maybeGetOrg None) /\
  (forall (c : ascii) (rest : string) (f1 : Failure),
     Org_create (Some (String c rest)) = inl f1 ->
     maybeGetOrg (Some (String c rest)) = Rejected (sdkFailure f1)).
Proof.
  intros Hc. cbn [parse optionalOrgFlag].
  rewrite (maybeGetOrg_failed _ _ Hc). cbn [truthy].
  repeat split.
  - intros f0 Hc0. rewrite (maybeGetOrg_failed _ _ Hc0). reflexivity.
  - intros c rest f1 Hc1. rewrite (maybeGetOrg_failed _ _ Hc1). reflexivity.
Qed.

End OrgFlagsProperties.

(* ===================================================================== *)
(** ** The claims on the example SDKs *)
(* ===================================================================== *)

Section InEmptyWorld.

Import Js OrgApiVersion OrgFlags.

#[local] Existing Instance Demo.nobody.

(** "10.0" is well formed, reads as 10, and is retired. *)
Lemma parse_retired_version_witness :
  validateApiVersion "10.0" = true /\
  parseInt10 "10.0" = Int 10 /\
  10 < minValidApiVersion /\
  parse orgApiVersionFlag "10.0" [] =
    ([], Rejected (createError "errors.RetiredApiVersion" [TNumber 21])).
Proof.
  assert (Hfmt : validateApiVersion "10.0" = true) by reflexivity.
  assert (Hnum : parseInt10 "10.0" = Int 10) by reflexivity.
  assert (Hlt : 10 < minValidApiVersion) by (unfold minValidApiVersion; lia).
  exact (conj Hfmt (conj Hnum (conj Hlt
           (parse_retired_version "10.0" 10 [] Hfmt Hnum Hlt)))).
Defined.

(** "10abc" fails the format check; although [parseInt] reads it as 10,
    below the minimum, the error is [InvalidApiVersion]. *)
Lemma parse_malformed_version_witness :
  validateApiVersion "10abc" = false /\
  parseInt10 "10abc" = Int 10 /\
  parse orgApiVersionFlag "10abc" [] =
    ([], Rejected (createError "errors.InvalidApiVersion" [TString "10abc"])).
Proof.
  assert (Hfmt : validateApiVersion "10abc" = false) by reflexivity.
  assert (Hnum : parseInt10 "10abc" = Int 10) by reflexivity.
  exact (conj Hfmt (conj Hnum (parse_malformed_version "10abc" [] Hfmt))).
Defined.

(** "25.0" is accepted with one deprecation notice. *)
Lemma parse_supported_version_witness :
  validateApiVersion "25.0" = true /\
  parseInt10 "25.0" = Int 25 /\
  minValidApiVersion <= 25 <= maxDeprecated /\
  parse orgApiVersionFlag "25.0" [] = ([deprecationWarning], Resolved "25.0").
Proof.
  assert (Hfmt : validateApiVersion "25.0" = true) by reflexivity.
  assert (Hnum : parseInt10 "25.0" = Int 25) by reflexivity.
  assert (Hmin : minValidApiVersion <= 25) by (unfold minValidApiVersion; lia).
  assert (Hdep : 25 <= maxDeprecated) by (unfold maxDeprecated; lia).
  exact (conj Hfmt (conj Hnum (conj (conj Hmin Hdep)
           (proj1 (parse_supported_version "25.0" 25 [] Hfmt Hnum Hmin) Hdep)))).
Defined.

(** No org is authenticated: creation fails for the empty string, and the
    optional org flag resolves to no value. *)
Lemma empty_input_swallowed_like_absent_witness :
  Org_create (Some "") = inl (Demo.NamedOrgNotFound "") /\
  parse optionalOrgFlag (Some "") = Resolved None.
Proof.
  assert (Hc : Org_create (Some "") = inl (Demo.NamedOrgNotFound ""))
    by reflexivity.
  split; [exact Hc|].
  exact (proj1 (proj2 (empty_input_swallowed_like_absent _ Hc))).
Defined.

End InEmptyWorld.

Section InStaleWorld.

Import Js OrgApiVersion OrgFlags.

#[local] Existing Instance Demo.stale.

(** C1 as stated fails.  An explicitly supplied identifier that cannot be
    resolved makes [parse] of the optional org flag throw, and a configured
    dev hub default that cannot be resolved makes [default] of the optional
    hub flag throw; neither resolves to no value. *)
Lemma optional_flags_throw_on_named_target :
  Org_create (Some "ghost") = inl (Demo.NamedOrgNotFound "ghost") /\
  parse optionalOrgFlag (Some "ghost") =
    Rejected (sdkFailure (Demo.NamedOrgNotFound "ghost")) /\
  parse optionalOrgFlag (Some "ghost") <> Resolved None /\
  getInfo_value TARGET_DEV_HUB = Some "gone" /\
  Org_create (Some "gone") = inl (Demo.NamedOrgNotFound "gone") /\
  default optionalHubFlag =
    Rejected (sdkFailure (Demo.NamedOrgNotFound "gone")) /\
  default optionalHubFlag <> Resolved None.
Proof.
  split; [reflexivity|]. split; [reflexivity|]. split; [discriminate|].
  split; [reflexivity|]. split; [reflexivity|]. split; [reflexivity|].
  discriminate.
Qed.

(** Without an input and without a default org, creation fails and the
    optional org flag resolves to no value. *)
Lemma optional_no_value_iff_no_identifier_witness :
  Org_create None = inl Demo.NoUsernameFound /\
  truthy None = false /\
  parse optionalOrgFlag None = Resolved None.
Proof.
  assert (Hc : Org_create None = inl Demo.NoUsernameFound) by reflexivity.
  assert (Hf : truthy None = false) by reflexivity.
  exact (conj Hc (conj Hf
    (proj2 (proj1 optional_no_value_iff_no_identifier None _ Hc) Hf))).
Defined.

(** C2 as stated fails, in three ways.  The required org flag without an
    input replaces the creation failure by [NoDefaultEnv]; the optional hub
    flag without an input throws the failure met on the configured default;
    the optional org flag swallows the failure met on an explicitly
    supplied empty string. *)
Lemma creation_failure_not_by_variant_alone :
  (Org_create None = inl Demo.NoUsernameFound /\
   parse requiredOrgFlag None = Rejected NoDefaultEnv /\
   parse requiredOrgFlag None <> Rejected (sdkFailure Demo.NoUsernameFound)) /\
  (Org_create (Some "gone") = inl (Demo.NamedOrgNotFound "gone") /\
   parse optionalHubFlag None =
     Rejected (sdkFailure (Demo.NamedOrgNotFound "gone")) /\
   parse optionalHubFlag None <> Resolved None) /\
  (Org_create (Some "") = inl (Demo.NamedOrgNotFound "") /\
   parse optionalOrgFlag (Some "") = Resolved None /\
   parse optionalOrgFlag (Some "") <>
     Rejected (sdkFailure (Demo.NamedOrgNotFound ""))).
Proof.
  split; [|split].
  - split; [reflexivity|]. split; [reflexivity|]. discriminate.
  - split; [reflexivity|]. split; [reflexivity|]. discriminate.
  - split; [reflexivity|]. split; [reflexivity|]. discriminate.
Qed.

(** The optional hub flag on the stale configured default. *)
Lemma creation_failure_by_flag_witness :
  Org_create (nullish None (getInfo_value TARGET_DEV_HUB)) =
    inl (Demo.NamedOrgNotFound "gone") /\
  parse optionalHubFlag None =
    Rejected (sdkFailure (Demo.NamedOrgNotFound "gone")).
Proof.
  assert (Hc : Org_create (nullish None (getInfo_value TARGET_DEV_HUB)) =
               inl (Demo.NamedOrgNotFound "gone")) by reflexivity.
  exact (conj Hc
    (proj1 (proj2 (proj2 creation_failure_by_flag)) None _ Hc)).
Defined.

(** C3 as stated fails.  When the targeted org cannot be found, the
    required org flag throws the creation failure, not [NoDefaultEnv]. *)
Lemma required_org_throws_creation_failure :
  Org_create (Some "ghost") = inl (Demo.NamedOrgNotFound "ghost") /\
  parse requiredOrgFlag (Some "ghost") =
    Rejected (sdkFailure (Demo.NamedOrgNotFound "ghost")) /\
  parse requiredOrgFlag (Some "ghost") <> Rejected NoDefaultEnv.
Proof.
  split; [reflexivity|]. split; [reflexivity|]. discriminate.
Qed.

(** The required hub flag.  Where nothing is configured and no input is
    given: [NoDefaultDevHub].  Where the configured default "gone" is not
    authenticated: the creation failure, unchanged. *)
Lemma required_hub_failures_witness :
  (truthy (getInfo_value (Sdk := Demo.nobody) TARGET_DEV_HUB) = false /\
   parse (requiredHubFlag (sdk := Demo.nobody)) None = Rejected NoDefaultDevHub) /\
  (hub_identifier None "gone" /\
   Org_create (Some "gone") = inl (Demo.NamedOrgNotFound "gone") /\
   parse requiredHubFlag None =
     Rejected (sdkFailure (Demo.NamedOrgNotFound "gone"))).
Proof.
  assert (Hcfg : truthy (getInfo_value (Sdk := Demo.nobody) TARGET_DEV_HUB) = false)
    by reflexivity.
  assert (Hid : hub_identifier None "gone").
  { right. split; [reflexivity|]. split; [reflexivity | discriminate]. }
  assert (Hc : Org_create (Some "gone") = inl (Demo.NamedOrgNotFound "gone"))
    by reflexivity.
  exact (conj
    (conj Hcfg (proj1 (proj1 (required_hub_failures (sdk := Demo.nobody)) Hcfg)))
    (conj Hid (conj Hc
       (proj1 (proj2 required_hub_failures None "gone" _ Hid Hc))))).
Defined.

(** The required org flag without an input and without a default org. *)
Lemma required_org_never_no_value_witness :
  Org_create None = inl Demo.NoUsernameFound /\
  parse requiredOrgFlag None = Rejected NoDefaultEnv.
Proof.
  assert (Hc : Org_create None = inl Demo.NoUsernameFound) by reflexivity.
  exact (conj Hc (proj1 required_org_never_no_value None _ Hc)).
Defined.

End InStaleWorld.

Section InMisconfiguredWorld.

Import Js OrgApiVersion OrgFlags.

#[local] Existing Instance Demo.misconfigured.

(** The configured API version "25.0": [default] emits the override notice
    and then behaves as [parse "25.0"]. *)
Lemma default_from_config_witness :
  getInfo_value ORG_API_VERSION = Some "25.0" /\
  "25.0" <> "" /\
  default orgApiVersionFlag [] =
    widen (parse orgApiVersionFlag "25.0" [overrideWarning "25.0"]).
Proof.
  assert (Hcfg : getInfo_value ORG_API_VERSION = Some "25.0") by reflexivity.
  assert (Hne : "25.0" <> "") by discriminate.
  exact (conj Hcfg (conj Hne
    (proj1 (proj2 (proj2 (default_from_config [])) "25.0" Hcfg Hne)))).
Defined.

(** C5 as stated fails.  No input is given, the configured dev hub default
    is "dev", and the handle created for it has the username
    "dev@example.com" and is not a dev hub.  The required flag names "dev",
    the optional flag names "dev@example.com".  So no one rule fits both:
    "the input or else the handle's username" is not what the required flag
    names, and "the input or else the configured default, or else the
    handle's username" is not what the optional flag names. *)
Lemma hub_flags_name_by_different_rules :
  getInfo_value TARGET_DEV_HUB = Some "dev" /\
  Org_create (Some "dev") = inr Demo.scratch /\
  determineIfDevHubOrg Demo.scratch = false /\
  getUsername Demo.scratch = Some "dev@example.com" /\
  parse requiredHubFlag None = Rejected (NotADevHub (Some "dev")) /\
  parse optionalHubFlag None = Rejected (NotADevHub (Some "dev@example.com")) /\
  parse requiredHubFlag None <>
    Rejected (NotADevHub (nullish None (getUsername Demo.scratch))) /\
  parse optionalHubFlag None <>
    Rejected
      (NotADevHub
         (nullish (nullish None (getInfo_value TARGET_DEV_HUB))
            (getUsername Demo.scratch))).
Proof.
  split; [reflexivity|]. split; [reflexivity|]. split; [reflexivity|].
  split; [reflexivity|]. split; [reflexivity|]. split; [reflexivity|].
  split; intros H; vm_compute in H; discriminate H.
Qed.

(** The configured dev hub default "dev" is a scratch org: the required
    hub flag names "dev", the optional hub flag names its username. *)
Lemma hub_flags_reject_non_hub_witness :
  hub_identifier None "dev" /\
  Org_create (Some "dev") = inr Demo.scratch /\
  determineIfDevHubOrg Demo.scratch = false /\
  parse requiredHubFlag None = Rejected (NotADevHub (Some "dev")) /\
  parse optionalHubFlag None = Rejected (NotADevHub (Some "dev@example.com")).
Proof.
  assert (Hid : hub_identifier None "dev").
  { right. split; [reflexivity|]. split; [reflexivity | discriminate]. }
  assert (Hc : Org_create (Some "dev") = inr Demo.scratch) by reflexivity.
  assert (Hd : determineIfDevHubOrg Demo.scratch = false) by reflexivity.
  exact (conj Hid (conj Hc (conj Hd (conj
    (proj1 hub_flags_reject_non_hub None "dev" Demo.scratch Hid Hc Hd)
    (proj2 hub_flags_reject_non_hub None Demo.scratch Hc Hd))))).
Defined.

End InMisconfiguredWorld.

(* ===================================================================== *)
(** ** The format check and the numeric value *)
(* ===================================================================== *)

(** Under the two-digits-dot-zero pattern every well-formed version string
    has a numeric value, between 10 and 99: [parseInt] never yields [NaN]
    on a string that passed the format check. *)
Lemma well_formed_has_numeric_value (s : string) :
  Demo.two_digits_dot_zero s = true ->
  exists n : Z, Js.parseInt10 s = Js.Int n /\ 10 <= n <= 99.
Proof.
  destruct s as [|a [|b [|c [|d [|e r]]]]]; cbn; try discriminate.
  - destruct c as [[] [] [] [] [] [] [] []]; discriminate.
  - destruct c as [[] [] [] [] [] [] [] []]; try discriminate.
    destruct d as [[] [] [] [] [] [] [] []]; try discriminate.
    intros H. apply andb_prop in H. destruct H as [Ha Hb].
    destruct a as [[] [] [] [] [] [] [] []]; try discriminate Ha;
      destruct b as [[] [] [] [] [] [] [] []]; try discriminate Hb;
      (eexists; split; [vm_compute; reflexivity | lia]).
  - destruct c as [[] [] [] [] [] [] [] []]; try discriminate.
    destruct d as [[] [] [] [] [] [] [] []]; discriminate.
Qed.

(* ===================================================================== *)
(** ** The API version flag: what it resolves to, fails with and emits *)
(* ===================================================================== *)

Section OrgApiVersionOutcomes.

Import Js OrgApiVersion.

Context {sdk : Sdk}.

Lemma log_grows (log : Lifecycle) (m : message) :
  (log ++ [m])%list <> log.
Proof.
  intros H. apply (f_equal (@length message)) in H.
  rewrite length_app in H. cbn in H. lia.
Qed.

(** X1.  Whatever [parse] resolves to is its input, and that input passed
    the format check and does not read as a number below the minimum
    supported version. *)
Theorem parse_resolves_only_supported
  (input s : string) (log log' : Lifecycle) :
  parse orgApiVersionFlag input log = (log', Resolved s) ->
  s = input /\
  validateApiVersion input = true /\
  (forall n : Z, parseInt10 input = Int n -> minValidApiVersion <= n).
Proof.
  cbn [parse orgApiVersionFlag]. intros Hres.
  split; [exact (validate_resolves_input _ _ _ _ Hres)|].
  destruct (validateApiVersion input) eqn:Hfmt.
  - split; [reflexivity|]. intros n Hnum.
    rewrite (validate_good_format _ _ Hfmt), Hnum in Hres. cbn [lt le] in Hres.
    destruct (n <? minValidApiVersion) eqn:Hlt; [discriminate|].
    apply Z.ltb_ge. exact Hlt.
  - rewrite (validate_bad_format _ _ Hfmt) in Hres. discriminate.
Qed.

(** X2.  When [parse] fails it has emitted nothing, and the error is one
    of the two the flag builds: [InvalidApiVersion] naming the input, for
    an input that fails the format check, or [RetiredApiVersion] naming 21,
    for a well-formed input that reads as a number below 21.  A failure of
    the SDK never comes out of [parse]. *)
Theorem parse_fails_silently_with_own_error
  (input : string) (e : thrown) (log log' : Lifecycle) :
  parse orgApiVersionFlag input log = (log', Rejected e) ->
  log' = log /\
  ((e = InvalidApiVersion input /\ validateApiVersion input = false) \/
   (e = RetiredApiVersion /\ validateApiVersion input = true /\
    exists n : Z, parseInt10 input = Int n /\ n < minValidApiVersion)).
Proof.
  cbn [parse orgApiVersionFlag]. intros Hres.
  destruct (validateApiVersion input) eqn:Hfmt.
  - rewrite (validate_good_format _ _ Hfmt) in Hres.
    destruct (parseInt10 input) as [|n] eqn:Hnum; cbn [lt le] in Hres.
    + discriminate.
    + destruct (n <? minValidApiVersion) eqn:Hlt.
      * inversion Hres; subst. split; [reflexivity|]. right.
        split; [reflexivity|]. split; [reflexivity|].
        exists n. split; [reflexivity|]. apply Z.ltb_lt. exact Hlt.
      * destruct (n <=? maxDeprecated); discriminate.
  - rewrite (validate_bad_format _ _ Hfmt) in Hres. inversion Hres; subst.
    split; [reflexivity|]. left. split; reflexivity.
Qed.

(** X3.  [parse] keeps the warnings emitted before it and adds at most
    one, the deprecation notice.  It adds that notice exactly when the
    input is well formed and reads as a number from 21 to 30. *)
Theorem parse_warns_iff_deprecated (input : string) (log : Lifecycle) :
  (fst (parse orgApiVersionFlag input log) = log \/
   fst (parse orgApiVersionFlag input log) = (log ++ [deprecationWarning])%list) /\
  (fst (parse orgApiVersionFlag input log) = (log ++ [deprecationWarning])%list <->
   validateApiVersion input = true /\
   exists n : Z,
     parseInt10 input = Int n /\ minValidApiVersion <= n <= maxDeprecated).
Proof.
  cbn [parse orgApiVersionFlag].
  destruct (validateApiVersion input) eqn:Hfmt.
  - rewrite (validate_good_format _ _ Hfmt).
    destruct (parseInt10 input) as [|n] eqn:Hnum; cbn [lt le fst].
    + split; [left; reflexivity|]. split.
      * intros H. symmetry in H. contradiction (log_grows _ _ H).
      * intros [_ [n [Hn _]]]. discriminate Hn.
    + destruct (n <? minValidApiVersion) eqn:Hlt; cbn [fst].
      * split; [left; reflexivity|]. split.
        -- intros H. symmetry in H. contradiction (log_grows _ _ H).
        -- intros [_ [m [Hm [Hmin _]]]]. inversion Hm; subst m.
           apply Z.ltb_lt in Hlt. lia.
      * destruct (n <=? maxDeprecated) eqn:Hle; cbn [fst].
        -- split; [right; reflexivity|]. split; [|reflexivity].
           intros _. split; [reflexivity|]. exists n.
           apply Z.ltb_ge in Hlt. apply Z.leb_le in Hle.
           split; [reflexivity | lia].
        -- split; [left; reflexivity|]. split.
           ++ intros H. symmetry in H. contradiction (log_grows _ _ H).
           ++ intros [_ [m [Hm [_ Hmax]]]]. inversion Hm; subst m.
              apply Z.leb_gt in Hle. lia.
  - rewrite (validate_bad_format _ _ Hfmt). cbn [fst].
    split; [left; reflexivity|]. split.
    + intros H. symmetry in H. contradiction (log_grows _ _ H).
    + intros [H _]. discriminate H.
Qed.

(** X5.  A configured API version that does not pass validation makes
    [default] fail, with the error [parse] gives for it, once the override
    notice and nothing else has been emitted: [InvalidApiVersion] for a
    malformed value, [RetiredApiVersion] for one that reads below 21. *)
Theorem default_fails_on_bad_configuration (v : string) (log : Lifecycle) :
  getInfo_value ORG_API_VERSION = Some v ->
  v <> "" ->
  (validateApiVersion v = false ->
   default orgApiVersionFlag log =
     ((log ++ [overrideWarning v])%list, Rejected (InvalidApiVersion v))) /\
  (forall n : Z,
     validateApiVersion v = true -> parseInt10 v = Int n ->
     n < minValidApiVersion ->
     default orgApiVersionFlag log =
       ((log ++ [overrideWarning v])%list, Rejected RetiredApiVersion)).
Proof.
  intros Hcfg Hne. cbn [default orgApiVersionFlag].
  unfold getDefaultFromConfig. rewrite Hcfg.
  destruct v as [|c rest]; [contradiction Hne; reflexivity|].
  cbn [truthy bind Monad_Async emitWarning]. split.
  - intros Hfmt. rewrite (validate_bad_format _ _ Hfmt). reflexivity.
  - intros n Hfmt Hnum Hlt. rewrite (validate_good_format _ _ Hfmt), Hnum.
    cbn [lt]. apply Z.ltb_lt in Hlt. rewrite Hlt. reflexivity.
Qed.

(** X6.  What [default] resolves to comes from the configuration.  A value
    [s] is the configured one, it passed the format check, and the warnings
    added are the override notice for [s], followed at most by the
    deprecation notice.  No value means that nothing, or an empty string,
    is configured, and then nothing has been emitted. *)
Theorem default_resolves_only_configured
  (r : option string) (log log' : Lifecycle) :
  default orgApiVersionFlag log = (log', Resolved r) ->
  match r with
  | Some s =>
      getInfo_value ORG_API_VERSION = Some s /\ s <> "" /\
      validateApiVersion s = true /\
      (log' = (log ++ [overrideWarning s])%list \/
       log' = (log ++ [overrideWarning s; deprecationWarning])%list)
  | None => truthy (getInfo_value ORG_API_VERSION) = false /\ log' = log
  end.
Proof.
  cbn [default orgApiVersionFlag]. unfold getDefaultFromConfig.
  destruct (getInfo_value ORG_API_VERSION) as [[|c rest]|] eqn:Hcfg;
    cbn [truthy].
  - intros H. inversion H; subst. split; reflexivity.
  - cbn [bind Monad_Async emitWarning].
    set (v := String c rest).
    destruct (validateApiVersion v) eqn:Hfmt.
    + rewrite (validate_good_format _ _ Hfmt).
      destruct (lt (parseInt10 v) (Int minValidApiVersion)); [discriminate|].
      destruct (le (parseInt10 v) (Int maxDeprecated));
        intros H; inversion H; subst; cbn.
      * split; [reflexivity|]. split; [discriminate|]. split; [exact Hfmt|].
        right. rewrite <- app_assoc. reflexivity.
      * split; [reflexivity|]. split; [discriminate|]. split; [exact Hfmt|].
        left. reflexivity.
    + rewrite (validate_bad_format _ _ Hfmt). discriminate.
  - intros H. inversion H; subst. split; reflexivity.
Qed.

End OrgApiVersionOutcomes.

(* ===================================================================== *)
(** ** The org flags: every case of each resolution *)
(* ===================================================================== *)

Section OrgFlagsOutcomes.

Import Js OrgFlags.

Context {sdk : Sdk}.

(** *** Case tables of the helpers *)

Lemma maybeGetOrg_cases (input : option string) :
  maybeGetOrg input =
    match Org_create input with
    | inr org => Resolved (Some org)
    | inl f => if truthy input then Rejected (sdkFailure f) else Resolved None
    end.
Proof.
  destruct (Org_create input) as [f|org] eqn:Hc.
  - exact (maybeGetOrg_failed _ _ Hc).
  - exact (maybeGetOrg_created _ _ Hc).
Qed.

Lemma getOrgOrThrow_cases (input : option string) :
  getOrgOrThrow input =
    match Org_create input with
    | inr org => Resolved org
    | inl f => Rejected (if truthy input then sdkFailure f else NoDefaultEnv)
    end.
Proof.
  destruct (Org_create input) as [f|org] eqn:Hc.
  - rewrite (getOrgOrThrow_failed _ _ Hc). destruct (truthy input); reflexivity.
  - exact (getOrgOrThrow_created _ _ Hc).
Qed.

Lemma ensureDevHub_cases (org : Org) (aliasOrUsername : option string) :
  ensureDevHub org aliasOrUsername =
    if determineIfDevHubOrg org then Resolved org
    else Rejected (NotADevHub (nullish aliasOrUsername (getUsername org))).
Proof.
  unfold ensureDevHub. destruct (determineIfDevHubOrg org); reflexivity.
Qed.

Lemma nullish_twice (a b : option string) :
  nullish (nullish a b) b = nullish a b.
Proof.
  destruct a; [reflexivity|]. destruct b; reflexivity.
Qed.

Lemma maybeGetHub_cases (input : option string) :
  maybeGetHub input =
    match Org_create (nullish input (getInfo_value TARGET_DEV_HUB)) with
    | inr org =>
        if determineIfDevHubOrg org then Resolved (Some org)
        else Rejected (NotADevHub (nullish input (getUsername org)))
    | inl f =>
        if truthy (nullish input (getInfo_value TARGET_DEV_HUB))
        then Rejected (sdkFailure f) else Resolved None
    end.
Proof.
  destruct (Org_create (nullish input (getInfo_value TARGET_DEV_HUB)))
    as [f|org] eqn:Hc.
  - exact (maybeGetHub_failed _ _ Hc).
  - unfold maybeGetHub. rewrite optional_hub_target.
    cbn [bind Monad_outcome]. rewrite (maybeGetOrg_created _ _ Hc).
    rewrite ensureDevHub_cases, nullish_twice.
    destruct (determineIfDevHubOrg org); reflexivity.
Qed.

Lemma getHubOrThrow_resolved (input : option string) (id : string) :
  hub_identifier input id ->
  getHubOrThrow input =
    match Org_create (Some id) with
    | inr org =>
        if determineIfDevHubOrg org then Resolved org
        else Rejected (NotADevHub (Some id))
    | inl f => Rejected (sdkFailure f)
    end.
Proof.
  intros Hid. unfold getHubOrThrow. rewrite (required_hub_target _ _ Hid).
  cbn [bind Monad_outcome]. unfold await_Org_create.
  destruct (Org_create (Some id)) as [f|org]; [reflexivity|].
  exact (ensureDevHub_cases org (Some id)).
Qed.

(** Either [getHubOrThrow] has an identifier, or there is no input and the
    configured value is falsy. *)
Lemma hub_identifier_or_none (input : option string) :
  (exists id : string, hub_identifier input id) \/
  (input = None /\ truthy (getInfo_value TARGET_DEV_HUB) = false).
Proof.
  destruct input as [s|].
  - left. exists s. left. reflexivity.
  - destruct (getInfo_value TARGET_DEV_HUB) as [[|c rest]|] eqn:Hcfg.
    + right. split; reflexivity.
    + left. exists (String c rest). right.
      split; [reflexivity|]. split; [exact Hcfg | discriminate].
    + right. split; reflexivity.
Qed.

Lemma hub_identifier_unique (input : option string) (id id' : string) :
  hub_identifier input id -> hub_identifier input id' -> id = id'.
Proof.
  intros [H | (H & Hc & _)] [H' | (H' & Hc' & _)]; congruence.
Qed.

(** *** Properties *)

(** X7.  The org flags resolve to a handle exactly when [Org.create]
    produced it for the input, and to that very handle; no dev hub check
    is made. *)
Theorem org_flags_resolve_created_handle (input : option string) (org : Org) :
  (parse optionalOrgFlag input = Resolved (Some org) <->
   Org_create input = inr org) /\
  (parse requiredOrgFlag input = Resolved org <->
   Org_create input = inr org).
Proof.
  cbn [parse optionalOrgFlag requiredOrgFlag].
  rewrite maybeGetOrg_cases, getOrgOrThrow_cases.
  destruct (Org_create input) as [f|org']; split; split; intros H;
    try (destruct (truthy input); discriminate H);
    try discriminate H; inversion H; reflexivity.
Qed.

(** X8.  The hub flags resolve to a handle only if it is a dev hub: the
    required flag exactly when [Org.create] produced a dev hub for its
    identifier (the input, else the non-empty configured default), the
    optional flag exactly when [Org.create] produced a dev hub for the
    input or, failing that, the configured value. *)
Theorem hub_flags_resolve_only_dev_hubs (input : option string) (org : Org) :
  (parse requiredHubFlag input = Resolved org <->
   exists id : string,
     hub_identifier input id /\ Org_create (Some id) = inr org /\
     determineIfDevHubOrg org = true) /\
  (parse optionalHubFlag input = Resolved (Some org) <->
   Org_create (nullish input (getInfo_value TARGET_DEV_HUB)) = inr org /\
   determineIfDevHubOrg org = true).
Proof.
  cbn [parse requiredHubFlag optionalHubFlag]. split.
  - split.
    + intros Hres.
      destruct (hub_identifier_or_none input) as [[id Hid] | [-> Hcfg]].
      * exists id. split; [exact Hid|].
        rewrite (getHubOrThrow_resolved _ _ Hid) in Hres.
        destruct (Org_create (Some id)) as [f|org']; [discriminate|].
        destruct (determineIfDevHubOrg org') eqn:Hd; [|discriminate].
        inversion Hres; subst. split; [reflexivity | exact Hd].
      * rewrite (required_hub_no_default Hcfg) in Hres. discriminate.
    + intros (id & Hid & Hc & Hd).
      rewrite (getHubOrThrow_resolved _ _ Hid), Hc, Hd. reflexivity.
  - rewrite maybeGetHub_cases.
    destruct (Org_create (nullish input (getInfo_value TARGET_DEV_HUB)))
      as [f|org'].
    + split.
      * intros H. destruct (truthy _); discriminate H.
      * intros [H _]. discriminate H.
    + destruct (determineIfDevHubOrg org') eqn:Hd; split.
      * intros H. inversion H; subst. split; [reflexivity | exact Hd].
      * intros [H _]. inversion H; subst. reflexivity.
      * intros H. discriminate H.
      * intros [H Hd']. inversion H; subst. congruence.
Qed.

(** X9.  Without an input and without a configured dev hub, the optional
    hub flag asks [Org.create] for the SDK's default org.  If that org is
    not a dev hub the flag fails with [NotADevHub] naming its username; if
    there is no default org the flag resolves to no value. *)
Theorem optional_hub_falls_back_on_default_org :
  getInfo_value TARGET_DEV_HUB = None ->
  default optionalHubFlag =
    match Org_create None with
    | inr org =>
        if determineIfDevHubOrg org then Resolved (Some org)
        else Rejected (NotADevHub (getUsername org))
    | inl _ => Resolved None
    end.
Proof.
  intros Hcfg. cbn [default optionalHubFlag].
  rewrite maybeGetHub_cases, Hcfg. cbn [nullish truthy].
  destruct (Org_create None); reflexivity.
Qed.

(** X10.  With an explicit input the hub flags do not look at the
    configured dev hub: the outcome is decided by [Org.create] on the
    input and by the dev hub check, and [NotADevHub] names the input. *)
Theorem explicit_input_overrides_configured_hub (s : string) :
  parse requiredHubFlag (Some s) =
    match Org_create (Some s) with
    | inr org =>
        if determineIfDevHubOrg org then Resolved org
        else Rejected (NotADevHub (Some s))
    | inl f => Rejected (sdkFailure f)
    end /\
  parse optionalHubFlag (Some s) =
    match Org_create (Some s) with
    | inr org =>
        if determineIfDevHubOrg org then Resolved (Some org)
        else Rejected (NotADevHub (Some s))
    | inl f => if truthy (Some s) then Rejected (sdkFailure f) else Resolved None
    end.
Proof.
  cbn [parse requiredHubFlag optionalHubFlag]. split.
  - apply getHubOrThrow_resolved. left. reflexivity.
  - exact (maybeGetHub_cases (Some s)).
Qed.

(** X11.  On a non-empty explicit input the optional and the required
    variant of a flag settle alike: the same handle or the same rejection,
    for the org flags and for the hub flags. *)
Theorem variants_agree_on_named_target (c : ascii) (rest : string) :
  parse optionalOrgFlag (Some (String c rest)) =
    optional (parse requiredOrgFlag (Some (String c rest))) /\
  parse optionalHubFlag (Some (String c rest)) =
    optional (parse requiredHubFlag (Some (String c rest))).
Proof.
  cbn [parse optionalOrgFlag requiredOrgFlag optionalHubFlag requiredHubFlag].
  split.
  - rewrite maybeGetOrg_cases, getOrgOrThrow_cases. cbn [truthy].
    destruct (Org_create _); reflexivity.
  - rewrite maybeGetHub_cases.
    rewrite (getHubOrThrow_resolved (Some (String c rest)) (String c rest))
      by (left; reflexivity).
    cbn [nullish truthy].
    destruct (Org_create _) as [f|org]; [reflexivity|].
    destruct (determineIfDevHubOrg org); reflexivity.
Qed.

(** X12.  [defaultHelp] runs the resolution of [default] again and shows
    the username of what it finds.  For the org flags: the username of the
    SDK's default org when there is one; when there is none, the optional
    flag shows nothing and the required flag fails with [NoDefaultEnv].
    For the hub flags: the username of the dev hub [default] resolves to,
    nothing when the optional flag resolves to no value, and the rejection
    of [default] when it rejects. *)
Theorem help_follows_default :
  defaultHelp optionalOrgFlag =
    Some (match Org_create None with
          | inr org => Resolved (getUsername org)
          | inl _ => Resolved None
          end) /\
  defaultHelp requiredOrgFlag =
    Some (match Org_create None with
          | inr org => Resolved (getUsername org)
          | inl _ => Rejected NoDefaultEnv
          end) /\
  defaultHelp requiredHubFlag =
    Some (shown getUsername (default requiredHubFlag)) /\
  defaultHelp optionalHubFlag =
    Some (shown username_of (default optionalHubFlag)).
Proof.
  cbn [defaultHelp default optionalOrgFlag requiredOrgFlag requiredHubFlag
       optionalHubFlag].
  split; [|split; [|split]]; apply (f_equal Some).
  - rewrite maybeGetOrg_cases. destruct (Org_create None); reflexivity.
  - rewrite getOrgOrThrow_cases. destruct (Org_create None); reflexivity.
  - destruct (getHubOrThrow None); reflexivity.
  - destruct (maybeGetHub None) as [[org|]|e]; reflexivity.
Qed.

(** X13.  [getDefaultHub] keeps the promise of its two signatures.  Asked
    to throw, it resolves only to a non-empty string, the configured one,
    and rejects only with [NoDefaultDevHub], when the configured value is
    absent or empty.  Asked not to throw, it always resolves, to the
    configured value as it is. *)
Theorem getDefaultHub_contract :
  (forall r : option string,
     getDefaultHub true = Resolved r <->
     r = getInfo_value TARGET_DEV_HUB /\ truthy r = true) /\
  (forall e : thrown,
     getDefaultHub true = Rejected e <->
     e = NoDefaultDevHub /\ truthy (getInfo_value TARGET_DEV_HUB) = false) /\
  getDefaultHub false = Resolved (getInfo_value TARGET_DEV_HUB).
Proof.
  unfold getDefaultHub.
  destruct (truthy (getInfo_value TARGET_DEV_HUB)) eqn:Hcfg; cbn.
  - split; [|split; [|reflexivity]].
    + intros r. split.
      * intros H. inversion H; subst. split; [reflexivity | exact Hcfg].
      * intros [-> _]. reflexivity.
    + intros e. split; [discriminate|]. intros [_ H]. discriminate H.
  - split; [|split; [|reflexivity]].
    + intros r. split; [discriminate|]. intros [-> H]. congruence.
    + intros e. split.
      * intros H. inversion H; subst. split; reflexivity.
      * intros [-> _]. reflexivity.
Qed.

(** X14.  The org flags reject only when [Org.create] failed for the
    input.  The optional flag then rejects with that failure and only on a
    non-empty input: it never throws an error of its own.  The required
    flag rejects with that failure on a non-empty input and with
    [NoDefaultEnv] otherwise. *)
Theorem org_flags_reject_only_on_failed_creation
  (input : option string) (e : thrown) :
  (parse optionalOrgFlag input = Rejected e ->
   exists f : Failure,
     Org_create input = inl f /\ truthy input = true /\ e = sdkFailure f) /\
  (parse requiredOrgFlag input = Rejected e ->
   exists f : Failure,
     Org_create input = inl f /\
     e = if truthy input then sdkFailure f else NoDefaultEnv).
Proof.
  cbn [parse optionalOrgFlag requiredOrgFlag].
  rewrite maybeGetOrg_cases, getOrgOrThrow_cases.
  destruct (Org_create input) as [f|org]; split; intros H; try discriminate H.
  - destruct (truthy input) eqn:Ht; [|discriminate H].
    inversion H; subst. exists f. repeat split.
  - inversion H; subst. exists f. split; reflexivity.
Qed.

(** X15.  Every rejection of the hub flags is one of these.  Required
    flag: [NoDefaultDevHub], with no input and no (or an empty) configured
    dev hub; the failure of [Org.create] on the identifier; [NotADevHub]
    naming the identifier, for a handle that is not a dev hub.  Optional
    flag: the failure of [Org.create] on a non-empty identifier, or
    [NotADevHub] naming the input or else the handle's username; it never
    rejects with [NoDefaultDevHub]. *)
Theorem hub_flags_rejections (input : option string) (e : thrown) :
  (parse requiredHubFlag input = Rejected e ->
   (e = NoDefaultDevHub /\ input = None /\
    truthy (getInfo_value TARGET_DEV_HUB) = false) \/
   (exists id : string,
      hub_identifier input id /\
      ((exists f : Failure, Org_create (Some id) = inl f /\ e = sdkFailure f) \/
       (exists org : Org,
          Org_create (Some id) = inr org /\
          determineIfDevHubOrg org = false /\ e = NotADevHub (Some id))))) /\
  (parse optionalHubFlag input = Rejected e ->
   (exists f : Failure,
      Org_create (nullish input (getInfo_value TARGET_DEV_HUB)) = inl f /\
      truthy (nullish input (getInfo_value TARGET_DEV_HUB)) = true /\
      e = sdkFailure f) \/
   (exists org : Org,
      Org_create (nullish input (getInfo_value TARGET_DEV_HUB)) = inr org /\
      determineIfDevHubOrg org = false /\
      e = NotADevHub (nullish input (getUsername org)))).
Proof.
  cbn [parse requiredHubFlag optionalHubFlag]. split.
  - intros Hres.
    destruct (hub_identifier_or_none input) as [[id Hid] | [-> Hcfg]].
    + right. exists id. split; [exact Hid|].
      rewrite (getHubOrThrow_resolved _ _ Hid) in Hres.
      destruct (Org_create (Some id)) as [f|org].
      * left. exists f. inversion Hres. split; reflexivity.
      * right. exists org.
        destruct (determineIfDevHubOrg org) eqn:Hd; [discriminate Hres|].
        inversion Hres. split; [reflexivity|]. split; reflexivity.
    + left. rewrite (required_hub_no_default Hcfg) in Hres.
      inversion Hres. repeat split. exact Hcfg.
  - rewrite maybeGetHub_cases.
    destruct (Org_create (nullish input (getInfo_value TARGET_DEV_HUB)))
      as [f|org].
    + destruct (truthy _); [|discriminate].
      intros H. inversion H. left. exists f. repeat split.
    + destruct (determineIfDevHubOrg org) eqn:Hd; [discriminate|].
      intros H. inversion H. right. exists org.
      split; [reflexivity|]. split; [exact Hd | reflexivity].
Qed.

(** X16.  Without an input and with a non-empty configured dev hub, both
    hub flags create the session for the configured value and settle alike
    when creation fails or the handle is a dev hub.  For a handle that is
    not a dev hub both fail with [NotADevHub], the required flag naming the
    configured value and the optional flag the handle's username. *)
Theorem hub_defaults_from_configuration (id : string) :
  getInfo_value TARGET_DEV_HUB = Some id ->
  id <> "" ->
  default requiredHubFlag =
    match Org_create (Some id) with
    | inr org =>
        if determineIfDevHubOrg org then Resolved org
        else Rejected (NotADevHub (Some id))
    | inl f => Rejected (sdkFailure f)
    end /\
  default optionalHubFlag =
    match Org_create (Some id) with
    | inr org =>
        if determineIfDevHubOrg org then Resolved (Some org)
        else Rejected (NotADevHub (getUsername org))
    | inl f => Rejected (sdkFailure f)
    end.
Proof.
  intros Hcfg Hne. cbn [default requiredHubFlag optionalHubFlag]. split.
  - apply getHubOrThrow_resolved. right.
    split; [reflexivity|]. split; assumption.
  - rewrite maybeGetHub_cases, Hcfg. cbn [nullish].
    destruct id as [|c rest]; [contradiction Hne; reflexivity|].
    reflexivity.
Qed.

End OrgFlagsOutcomes.

(* ===================================================================== *)
(** ** The further properties on the example SDKs *)
(* ===================================================================== *)

Section NothingAuthenticated.

Import Js OrgApiVersion OrgFlags.

#[local] Existing Instance Demo.nobody.

(** "45.0" is resolved: it is the input, well formed, not below 21. *)
Lemma parse_resolves_only_supported_witness :
  parse orgApiVersionFlag "45.0" [] = ([], Resolved "45.0") /\
  validateApiVersion "45.0" = true /\
  (forall n : Z, parseInt10 "45.0" = Int n -> minValidApiVersion <= n).
Proof.
  assert (Hres : parse orgApiVersionFlag "45.0" [] = ([], Resolved "45.0"))
    by reflexivity.
  exact (conj Hres
    (proj2 (parse_resolves_only_supported "45.0" "45.0" [] [] Hres))).
Defined.

(** "10.0" is rejected as retired, and nothing was emitted. *)
Lemma parse_fails_silently_with_own_error_witness :
  parse orgApiVersionFlag "10.0" [deprecationWarning] =
    ([deprecationWarning], Rejected RetiredApiVersion) /\
  [deprecationWarning] = [deprecationWarning] /\
  ((RetiredApiVersion = InvalidApiVersion "10.0" /\
    validateApiVersion "10.0" = false) \/
   (RetiredApiVersion = RetiredApiVersion /\
    validateApiVersion "10.0" = true /\
    exists n : Z, parseInt10 "10.0" = Int n /\ n < minValidApiVersion)).
Proof.
  assert (Hres : parse orgApiVersionFlag "10.0" [deprecationWarning] =
                 ([deprecationWarning], Rejected RetiredApiVersion))
    by reflexivity.
  exact (conj Hres
    (parse_fails_silently_with_own_error "10.0" _ _ _ Hres)).
Defined.

(** "30.0" is the last deprecated version: one notice. *)
Lemma parse_warns_iff_deprecated_witness :
  validateApiVersion "30.0" = true /\
  parseInt10 "30.0" = Int 30 /\
  fst (parse orgApiVersionFlag "30.0" []) = [deprecationWarning].
Proof.
  assert (Hfmt : validateApiVersion "30.0" = true) by reflexivity.
  assert (Hnum : parseInt10 "30.0" = Int 30) by reflexivity.
  assert (Hrange : minValidApiVersion <= 30 <= maxDeprecated)
    by (unfold minValidApiVersion, maxDeprecated; lia).
  exact (conj Hfmt (conj Hnum
    (proj2 (proj2 (parse_warns_iff_deprecated "30.0" []))
       (conj Hfmt (ex_intro _ 30 (conj Hnum Hrange)))))).
Defined.

(** The required org flag on a name that is not authenticated rejects
    with the failure of the SDK. *)
Lemma org_flags_reject_only_on_failed_creation_witness :
  parse requiredOrgFlag (Some "ghost") =
    Rejected (sdkFailure (Demo.NamedOrgNotFound "ghost")) /\
  exists f : Failure,
    Org_create (Some "ghost") = inl f /\
    sdkFailure (Demo.NamedOrgNotFound "ghost") =
      if truthy (Some "ghost") then sdkFailure f else NoDefaultEnv.
Proof.
  assert (Hres : parse requiredOrgFlag (Some "ghost") =
                 Rejected (sdkFailure (Demo.NamedOrgNotFound "ghost")))
    by reflexivity.
  exact (conj Hres
    (proj2 (org_flags_reject_only_on_failed_creation (Some "ghost") _) Hres)).
Defined.

End NothingAuthenticated.

Section HubConfigured.

Import Js OrgApiVersion OrgFlags.

#[local] Existing Instance Worlds.healthy.

(** The configured API version "10.0" is retired: [default] fails after
    the override notice. *)
Lemma default_fails_on_bad_configuration_witness :
  getInfo_value ORG_API_VERSION = Some "10.0" /\
  "10.0" <> "" /\
  default orgApiVersionFlag [] =
    ([overrideWarning "10.0"], Rejected RetiredApiVersion).
Proof.
  assert (Hcfg : getInfo_value ORG_API_VERSION = Some "10.0") by reflexivity.
  assert (Hne : "10.0" <> "") by discriminate.
  assert (Hfmt : validateApiVersion "10.0" = true) by reflexivity.
  assert (Hnum : parseInt10 "10.0" = Int 10) by reflexivity.
  assert (Hlt : 10 < minValidApiVersion) by (unfold minValidApiVersion; lia).
  exact (conj Hcfg (conj Hne
    (proj2 (default_fails_on_bad_configuration "10.0" [] Hcfg Hne)
       10 Hfmt Hnum Hlt))).
Defined.

(** Without an input the required hub flag resolves to the configured dev
    hub, which is a dev hub. *)
Lemma hub_flags_resolve_only_dev_hubs_witness :
  parse requiredHubFlag None = Resolved Demo.hub /\
  exists id : string,
    hub_identifier None id /\ Org_create (Some id) = inr Demo.hub /\
    determineIfDevHubOrg Demo.hub = true.
Proof.
  assert (Hres : parse requiredHubFlag None = Resolved Demo.hub)
    by reflexivity.
  exact (conj Hres
    (proj1 (proj1 (hub_flags_resolve_only_dev_hubs None Demo.hub)) Hres)).
Defined.

(** [getDefaultHub(true)] resolves to the configured "hub". *)
Lemma getDefaultHub_contract_witness :
  getDefaultHub true = Resolved (Some "hub") /\
  Some "hub" = getInfo_value TARGET_DEV_HUB /\
  truthy (Some "hub") = true.
Proof.
  assert (Hres : getDefaultHub true = Resolved (Some "hub")) by reflexivity.
  exact (conj Hres
    (proj1 (proj1 getDefaultHub_contract (Some "hub")) Hres)).
Defined.

(** Both hub flags default to the configured dev hub "hub". *)
Lemma hub_defaults_from_configuration_witness :
  getInfo_value TARGET_DEV_HUB = Some "hub" /\
  "hub" <> "" /\
  default requiredHubFlag = Resolved Demo.hub /\
  default optionalHubFlag = Resolved (Some Demo.hub).
Proof.
  assert (Hcfg : getInfo_value TARGET_DEV_HUB = Some "hub") by reflexivity.
  assert (Hne : "hub" <> "") by discriminate.
  exact (conj Hcfg (conj Hne
    (hub_defaults_from_configuration "hub" Hcfg Hne))).
Defined.

(** An explicit scratch org is rejected by the required hub flag with
    [NotADevHub] naming the input. *)
Lemma hub_flags_rejections_witness :
  parse requiredHubFlag (Some "dev") = Rejected (NotADevHub (Some "dev")) /\
  ((NotADevHub (Some "dev") = NoDefaultDevHub /\ Some "dev" = None /\
    truthy (getInfo_value TARGET_DEV_HUB) = false) \/
   (exists id : string,
      hub_identifier (Some "dev") id /\
      ((exists f : Failure,
          Org_create (Some id) = inl f /\
          NotADevHub (Some "dev") = sdkFailure f) \/
       (exists org : Org,
          Org_create (Some id) = inr org /\
          determineIfDevHubOrg org = false /\
          NotADevHub (Some "dev") = NotADevHub (Some id))))).
Proof.
  assert (Hres : parse requiredHubFlag (Some "dev") =
                 Rejected (NotADevHub (Some "dev"))) by reflexivity.
  exact (conj Hres
    (proj1 (hub_flags_rejections (Some "dev") _) Hres)).
Defined.

End HubConfigured.

Section ScratchOrgOnly.

Import Js OrgApiVersion OrgFlags.

#[local] Existing Instance Worlds.no_hub.

(** No dev hub is configured and the default org is a scratch org: the
    optional hub flag fails with [NotADevHub] naming its username. *)
Lemma optional_hub_falls_back_on_default_org_witness :
  getInfo_value TARGET_DEV_HUB = None /\
  Org_create None = inr Demo.scratch /\
  default optionalHubFlag = Rejected (NotADevHub (Some "dev@example.com")).
Proof.
  assert (Hcfg : getInfo_value TARGET_DEV_HUB = None) by reflexivity.
  assert (Hc : Org_create None = inr Demo.scratch) by reflexivity.
  exact (conj Hcfg (conj Hc (optional_hub_falls_back_on_default_org Hcfg))).
Defined.

(** The org flags resolve to the scratch org "dev" as it is. *)
Lemma org_flags_resolve_created_handle_witness :
  Org_create (Some "dev") = inr Demo.scratch /\
  parse optionalOrgFlag (Some "dev") = Resolved (Some Demo.scratch) /\
  parse requiredOrgFlag (Some "dev") = Resolved Demo.scratch.
Proof.
  assert (Hc : Org_create (Some "dev") = inr Demo.scratch) by reflexivity.
  exact (conj Hc (conj
    (proj2 (proj1 (org_flags_resolve_created_handle (Some "dev") Demo.scratch)) Hc)
    (proj2 (proj2 (org_flags_resolve_created_handle (Some "dev") Demo.scratch)) Hc))).
Defined.

(** The configured API version "45.0" is current: [default] resolves to
    it after the override notice alone. *)
Lemma default_resolves_only_configured_witness :
  default orgApiVersionFlag [] = ([overrideWarning "45.0"], Resolved (Some "45.0")) /\
  getInfo_value ORG_API_VERSION = Some "45.0" /\ "45.0" <> "" /\
  validateApiVersion "45.0" = true /\
  ([overrideWarning "45.0"] = ([] ++ [overrideWarning "45.0"])%list \/
   [overrideWarning "45.0"] =
     ([] ++ [overrideWarning "45.0"; deprecationWarning])%list).
Proof.
  assert (Hres : default orgApiVersionFlag [] =
                 ([overrideWarning "45.0"], Resolved (Some "45.0")))
    by reflexivity.
  exact (conj Hres
    (default_resolves_only_configured (Some "45.0") [] _ Hres)).
Defined.

End ScratchOrgOnly.
